(** * HTMX lifecycle hooks (ui/static/core/js/htmx-hooks.js)

    The script is one immediately-invoked function.  When the global
    [window.htmx] is truthy it registers three listeners on [document]:
    - ['htmx:send']          adds the class ['hx-busy'] to the root element,
    - ['htmx:afterOnLoad']   removes it,
    - ['htmx:responseError'] calls [console.warn] with a fixed message and
      [e.detail.xhr && e.detail.xhr.status].

    The embedding below keeps the JavaScript semantics the script relies
    on: dynamically typed values, truthiness, property reads that raise a
    TypeError on [undefined]/[null], the short-circuit [&&], the
    [DOMTokenList] behind [classList], the listener list of [document] and
    the console.  Effects are threaded through a small state-and-exception
    monad over the page state. *)

From Stdlib Require Import ZArith Ascii String.
From stdpp Require Import base option list strings gmap.

Local Open Scope string_scope.
Local Open Scope list_scope.

(** ** JavaScript values *)

Module Js.

(** Numbers are kept as integers plus [NaN]; that is all a status code or
    a truthiness test can tell apart here. *)
#[local] Set Warnings "-register-all".
Inductive value : Type :=
| VUndefined
| VNull
| VBool (b : bool)
| VNum (z : Z)
| VNaN
| VStr (s : string)
| VObj (props : gmap string value).

Inductive exn : Type :=
| TypeError
| SyntaxError
| InvalidCharacterError.

(** ECMAScript [ToBoolean]. *)
Definition to_boolean (v : value) : bool :=
  match v with
  | VUndefined | VNull | VNaN => false
  | VBool b => b
  | VNum z => negb (Z.eqb z 0)
  | VStr s => negb (String.eqb s "")
  | VObj _ => true
  end.

(** [v == null]: the two values on which a property read throws. *)
Definition nullish (v : value) : bool :=
  match v with
  | VUndefined | VNull => true
  | _ => false
  end.

(** The property read [v.k].  Reading from [undefined] or [null] raises a
    TypeError.  An object answers with its own property or [undefined].
    A primitive is wrapped, and none of the built-in prototypes carries
    the two names this script reads ([xhr], [status]), so it answers
    [undefined]. *)
Definition get_prop (v : value) (k : string) : exn + value :=
  match v with
  | VUndefined | VNull => inl TypeError
  | VObj props => inr (default VUndefined (props !! k))
  | _ => inr VUndefined
  end.

End Js.

Import Js.

(** ** Page state *)

Inductive log_level : Type := LLog | LInfo | LWarn | LError.

Record log_entry : Type := LogEntry {
  level : log_level;
  args : list value
}.

(** The three function expressions of the script. *)
Inductive handler : Type := HSend | HAfterOnLoad | HResponseError.

Record event : Type := Event {
  ev_type : string;
  detail : value
}.

Record world : Type := World {
  window_htmx : value;                    (* window.htmx *)
  listeners : list (string * handler);    (* listeners of document *)
  root_classes : list string;             (* documentElement.classList *)
  console : list log_entry;               (* console output, oldest first *)
  reported : list exn                     (* exceptions reported by dispatch *)
}.

(** ** State-and-exception monad *)

Inductive outcome (A : Type) : Type :=
| Ret (a : A)
| Throw (e : exn).
Arguments Ret {A} a.
Arguments Throw {A} e.

Definition js (A : Type) : Type := world -> outcome A * world.

Definition ret {A} (a : A) : js A := fun w => (Ret a, w).
Definition throw {A} (e : exn) : js A := fun w => (Throw e, w).
Definition bind {A B} (k : A -> js B) (m : js A) : js B :=
  fun w =>
    match m w with
    | (Ret a, w') => k a w'
    | (Throw e, w') => (Throw e, w')
    end.
#[global] Instance js_ret : MRet js := @ret.
#[global] Instance js_bind : MBind js := @bind.
Definition lift {A} (r : exn + A) : js A :=
  match r with
  | inl e => throw e
  | inr a => ret a
  end.

Definition gets {A} (f : world -> A) : js A := fun w => (Ret (f w), w).
Definition modify (f : world -> world) : js unit := fun w => (Ret tt, f w).

Definition exec {A} (m : js A) (w : world) : world := snd (m w).
Definition result {A} (m : js A) (w : world) : outcome A := fst (m w).

(** ** Host operations used by the script *)

Definition is_ascii_whitespace (c : ascii) : bool :=
  let n := nat_of_ascii c in
  (n =? 9)%nat || (n =? 10)%nat || (n =? 12)%nat || (n =? 13)%nat || (n =? 32)%nat.

Fixpoint has_ascii_whitespace (s : string) : bool :=
  match s with
  | EmptyString => false
  | String c s' => is_ascii_whitespace c || has_ascii_whitespace s'
  end.

(** Token validation shared by [DOMTokenList.add] and [.remove]. *)
Definition validate_token (tok : string) : js unit :=
  if String.eqb tok "" then throw SyntaxError
  else if has_ascii_whitespace tok then throw InvalidCharacterError
  else ret tt.

(** The token set is an ordered set: [add] appends a token that is not yet
    there, [remove] drops it. *)
Definition token_add (tok : string) (cls : list string) : list string :=
  if decide (tok ∈ cls) then cls else cls ++ [tok].

Definition token_remove (tok : string) (cls : list string) : list string :=
  filter (fun c => c ≠ tok) cls.

Definition set_root_classes (cls : list string) (w : world) : world :=
  {| window_htmx := window_htmx w; listeners := listeners w;
     root_classes := cls; console := console w; reported := reported w |}.

Definition classList_add (tok : string) : js unit :=
  validate_token tok ;;
  modify (fun w => set_root_classes (token_add tok (root_classes w)) w).

Definition classList_remove (tok : string) : js unit :=
  validate_token tok ;;
  modify (fun w => set_root_classes (token_remove tok (root_classes w)) w).

Definition console_warn (xs : list value) : js unit :=
  modify (fun w =>
    {| window_htmx := window_htmx w; listeners := listeners w;
       root_classes := root_classes w;
       console := console w ++ [LogEntry LWarn xs];
       reported := reported w |}).

(** Every function expression is a fresh object, so a registration never
    meets an equal listener and always appends. *)
Definition addEventListener (type : string) (h : handler) : js unit :=
  modify (fun w =>
    {| window_htmx := window_htmx w;
       listeners := listeners w ++ [(type, h)];
       root_classes := root_classes w; console := console w;
       reported := reported w |}).

(** ** The script *)

Definition busy : string := "hx-busy".
Definition fixed_message : string := "HTMX request failed".

(** [function () { document.documentElement.classList.add('hx-busy'); }] *)
Definition on_send (e : event) : js unit := classList_add busy.

(** [function () { document.documentElement.classList.remove('hx-busy'); }] *)
Definition on_afterOnLoad (e : event) : js unit := classList_remove busy.

(** [a && b], with [b] evaluated only when [a] is truthy. *)
Definition js_and (a : js value) (b : js value) : js value :=
  x ← a; if to_boolean x then b else ret x.

(** [function (e) {
       console.warn('HTMX request failed', e.detail.xhr && e.detail.xhr.status);
     }]
    The arguments are evaluated before the call. *)
Definition on_responseError (e : event) : js unit :=
  status ← js_and (lift (get_prop (detail e) "xhr"))
                   (xhr ← lift (get_prop (detail e) "xhr");
                    lift (get_prop xhr "status"));
  console_warn [VStr fixed_message; status].

Definition run_handler (h : handler) : event -> js unit :=
  match h with
  | HSend => on_send
  | HAfterOnLoad => on_afterOnLoad
  | HResponseError => on_responseError
  end.

(** The immediately-invoked function itself. *)
Definition htmx_hooks : js unit :=
  htmx ← gets window_htmx;
  if negb (to_boolean htmx) then ret tt
  else
    addEventListener "htmx:send" HSend ;;
    addEventListener "htmx:afterOnLoad" HAfterOnLoad ;;
    addEventListener "htmx:responseError" HResponseError.

(** ** Event dispatch on [document] *)

Definition report (x : exn) (w : world) : world :=
  {| window_htmx := window_htmx w; listeners := listeners w;
     root_classes := root_classes w; console := console w;
     reported := reported w ++ [x] |}.

(** A listener that throws has its exception reported; dispatch goes on. *)
Definition invoke (e : event) (w : world) (h : handler) : world :=
  match run_handler h e w with
  | (Ret _, w') => w'
  | (Throw x, w') => report x w'
  end.

Definition listeners_for (type : string) (ls : list (string * handler))
  : list handler :=
  (filter (fun p => p.1 = type) ls).*2.

(** The listener list is read once, when dispatch starts. *)
Definition dispatchEvent (e : event) : js unit :=
  modify (fun w => foldl (invoke e) w (listeners_for (ev_type e) (listeners w))).

Fixpoint dispatch_all (es : list event) : js unit :=
  match es with
  | [] => ret tt
  | e :: es' => dispatchEvent e ;; dispatch_all es'
  end.

(** The registrations the script makes, in source order. *)
Definition hook_table : list (string * handler) :=
  [("htmx:send", HSend); ("htmx:afterOnLoad", HAfterOnLoad);
   ("htmx:responseError", HResponseError)].

Definition send_event (d : value) : event := Event "htmx:send" d.
Definition afterOnLoad_event (d : value) : event := Event "htmx:afterOnLoad" d.
Definition responseError_event (d : value) : event :=
  Event "htmx:responseError" d.

(** A value is present when a property can be read from it, and lacks a
    property when the read answers [undefined]. *)
Definition present (v : value) : Prop := nullish v = false.
Definition lacks (v : value) (k : string) : Prop :=
  present v ∧ get_prop v k = inr VUndefined.

(** What a handler does to the class list of the root element. *)
Definition class_effect (h : handler) (cls : list string) : list string :=
  match h with
  | HSend => token_add busy cls
  | HAfterOnLoad => token_remove busy cls
  | HResponseError => cls
  end.

Definition class_effects (hs : list handler) (cls : list string)
  : list string :=
  foldl (fun c h => class_effect h c) cls hs.

(** The page with the three registrations appended. *)
Definition installed (w : world) : world :=
  {| window_htmx := window_htmx w;
     listeners := listeners w ++ hook_table;
     root_classes := root_classes w; console := console w;
     reported := reported w |}.

(** The value of [xhr && xhr.status] once [xhr] has been read. *)
Definition and_status (xhr : value) : value :=
  if to_boolean xhr then
    match get_prop xhr "status" with
    | inr s => s
    | inl _ => VUndefined
    end
  else xhr.

(** The page after one more warning with arguments [xs]. *)
Definition warned (xs : list value) (w : world) : world :=
  {| window_htmx := window_htmx w; listeners := listeners w;
     root_classes := root_classes w;
     console := console w ++ [LogEntry LWarn xs];
     reported := reported w |}.

(** A page on which nothing has run yet, with the library loaded. *)
Definition fresh_page : world :=
  {| window_htmx := VObj ∅; listeners := []; root_classes := [];
     console := []; reported := [] |}.

(** ** Reading the events of a whole session *)

(** The handler the script attaches to an event type, if any. *)
Definition handler_of (t : string) : option handler :=
  if decide (t = "htmx:send") then Some HSend
  else if decide (t = "htmx:afterOnLoad") then Some HAfterOnLoad
  else if decide (t = "htmx:responseError") then Some HResponseError
  else None.

(** A listener list that holds registrations of this script only, as after
    any number of loads of it. *)
Definition hooks_only (ls : list (string * handler)) : Prop :=
  Forall (fun p => p ∈ hook_table) ls.

(** A page on which the script has registered at least once. *)
Definition hooked (w : world) : Prop :=
  hooks_only (listeners w) ∧ hook_table ⊆ listeners w.

(** The busy indicator read as a single flag: the last [htmx:send] or
    [htmx:afterOnLoad] event decides, other events leave it alone. *)
Definition flag_step (b : bool) (e : event) : bool :=
  match handler_of (ev_type e) with
  | Some HSend => true
  | Some HAfterOnLoad => false
  | _ => b
  end.

Definition busy_flag (es : list event) (b : bool) : bool := foldl flag_step b es.

(** The console entries this script writes. *)
Definition script_warning (en : log_entry) : Prop :=
  level en = LWarn ∧ ∃ v, args en = [VStr fixed_message; v].



(** * Properties *)

(** ** Token lists *)

Section Tokens.
Implicit Types (tok c : string) (cls : list string).

Lemma token_add_elem tok cls : tok ∈ token_add tok cls.
Proof.
  unfold token_add. case_decide; [done|].
  apply elem_of_app. right. by apply list_elem_of_singleton.
Qed.

Lemma token_add_present tok cls : tok ∈ cls → token_add tok cls = cls.
Proof. intros Hin. unfold token_add. by rewrite decide_True. Qed.

Lemma token_add_other tok c cls :
  c ≠ tok → c ∈ token_add tok cls ↔ c ∈ cls.
Proof.
  intros Hne. unfold token_add. case_decide; [done|].
  rewrite elem_of_app, list_elem_of_singleton. tauto.
Qed.

Lemma token_add_keeps tok c cls : c ∈ cls → c ∈ token_add tok cls.
Proof.
  intros Hin. unfold token_add. case_decide; [done|].
  apply elem_of_app. by left.
Qed.

Lemma token_remove_elem tok cls : tok ∉ token_remove tok cls.
Proof. unfold token_remove. rewrite list_elem_of_filter. tauto. Qed.

Lemma token_remove_absent tok cls : tok ∉ cls → token_remove tok cls = cls.
Proof.
  unfold token_remove. induction cls as [|c cls IH]; intros Hnin; [done|].
  apply not_elem_of_cons in Hnin as [Hne Hnin].
  rewrite filter_cons_True by congruence. f_equal. by apply IH.
Qed.

Lemma token_remove_other tok c cls :
  c ≠ tok → c ∈ token_remove tok cls ↔ c ∈ cls.
Proof. intros Hne. unfold token_remove. rewrite list_elem_of_filter. tauto. Qed.

Lemma token_remove_sub tok c cls : c ∈ token_remove tok cls → c ∈ cls.
Proof. unfold token_remove. rewrite list_elem_of_filter. tauto. Qed.

(** Both operations keep the list an ordered set. *)
Lemma token_add_NoDup tok cls : NoDup cls → NoDup (token_add tok cls).
Proof.
  intros Hnd. unfold token_add. case_decide as Hin; [done|].
  apply NoDup_app. split_and!; [done| |apply NoDup_singleton].
  intros x Hx Hx'. apply list_elem_of_singleton in Hx'. by subst.
Qed.

Lemma token_remove_NoDup tok cls : NoDup cls → NoDup (token_remove tok cls).
Proof. apply NoDup_filter. Qed.

(** The classes other than [tok] keep their order under both. *)
Lemma token_remove_add tok cls :
  token_remove tok (token_add tok cls) = token_remove tok cls.
Proof.
  unfold token_add, token_remove. case_decide; [done|].
  rewrite filter_app, filter_cons_False by (intros Hne; by apply Hne).
  by rewrite filter_nil, app_nil_r.
Qed.

Lemma token_remove_remove tok cls :
  token_remove tok (token_remove tok cls) = token_remove tok cls.
Proof. apply token_remove_absent, token_remove_elem. Qed.

End Tokens.

(** ** The handlers, one at a time *)

Lemma set_root_classes_id w : set_root_classes (root_classes w) w = w.
Proof. by destruct w. Qed.

Lemma on_send_run e w :
  on_send e w = (Ret tt, set_root_classes (token_add busy (root_classes w)) w).
Proof. reflexivity. Qed.

Lemma on_afterOnLoad_run e w :
  on_afterOnLoad e w
  = (Ret tt, set_root_classes (token_remove busy (root_classes w)) w).
Proof. reflexivity. Qed.

Lemma truthy_present v : to_boolean v = true → present v.
Proof. by destruct v. Qed.

Lemma get_prop_present v k : present v → ∃ x, get_prop v k = inr x.
Proof. destruct v; intros Hp; try discriminate Hp; simpl; eauto. Qed.

Lemma get_prop_absent v k : ¬ present v → get_prop v k = inl TypeError.
Proof. unfold present. by destruct v. Qed.

Lemma on_responseError_read e w xhr :
  get_prop (detail e) "xhr" = inr xhr →
  on_responseError e w = (Ret tt, warned [VStr fixed_message; and_status xhr] w).
Proof.
  intros Hx. unfold on_responseError, js_and, and_status.
  unfold mbind, js_bind, bind. rewrite Hx. simpl.
  destruct (to_boolean xhr) eqn:Ht; [|done].
  destruct (get_prop_present xhr "status" (truthy_present _ Ht)) as [s Hs].
  by rewrite Hs.
Qed.

Lemma on_responseError_throw e w :
  ¬ present (detail e) → on_responseError e w = (Throw TypeError, w).
Proof.
  intros Hn. unfold on_responseError, js_and.
  unfold mbind, js_bind, bind. by rewrite (get_prop_absent _ _ Hn).
Qed.

Lemma run_handler_classes h e w :
  root_classes (exec (run_handler h e) w) = class_effect h (root_classes w).
Proof.
  destruct h; [done..|]. simpl.
  destruct (decide (present (detail e))) as [Hp|Hn].
  - destruct (get_prop_present _ "xhr" Hp) as [x Hx].
    unfold exec. by rewrite (on_responseError_read _ _ _ Hx).
  - unfold exec. by rewrite on_responseError_throw.
Qed.

Lemma run_handler_listeners h e w :
  listeners (exec (run_handler h e) w) = listeners w.
Proof.
  destruct h; [done..|]. simpl.
  destruct (decide (present (detail e))) as [Hp|Hn].
  - destruct (get_prop_present _ "xhr" Hp) as [x Hx].
    unfold exec. by rewrite (on_responseError_read _ _ _ Hx).
  - unfold exec. by rewrite on_responseError_throw.
Qed.

(** ** Sequencing *)

Lemma exec_bind {A B} (m : js A) (k : A → js B) w a :
  result m w = Ret a → exec (m ≫= k) w = exec (k a) (exec m w).
Proof.
  unfold result, exec, mbind, js_bind, bind.
  destruct (m w) as [[a'|x] w']; simpl; [|done]. by intros [= ->].
Qed.

Lemma result_bind {A B} (m : js A) (k : A → js B) w a :
  result m w = Ret a → result (m ≫= k) w = result (k a) (exec m w).
Proof.
  unfold result, exec, mbind, js_bind, bind.
  destruct (m w) as [[a'|x] w']; simpl; [|done]. by intros [= ->].
Qed.

(** ** Registration *)

Lemma htmx_hooks_absent w :
  to_boolean (window_htmx w) = false → htmx_hooks w = (Ret tt, w).
Proof.
  intros Hf. unfold htmx_hooks, mbind, js_bind, bind, gets. by rewrite Hf.
Qed.

Lemma htmx_hooks_present w :
  to_boolean (window_htmx w) = true → htmx_hooks w = (Ret tt, installed w).
Proof.
  intros Ht. unfold htmx_hooks, mbind, js_bind, bind, gets. rewrite Ht. simpl.
  unfold installed, hook_table, addEventListener, modify. simpl.
  by rewrite <- !app_assoc.
Qed.

Lemma htmx_hooks_returns w : result htmx_hooks w = Ret tt.
Proof.
  unfold result. destruct (to_boolean (window_htmx w)) eqn:Hb.
  - by rewrite htmx_hooks_present.
  - by rewrite htmx_hooks_absent.
Qed.

Lemma htmx_hooks_classes w : root_classes (exec htmx_hooks w) = root_classes w.
Proof.
  unfold exec. destruct (to_boolean (window_htmx w)) eqn:Hb.
  - by rewrite htmx_hooks_present.
  - by rewrite htmx_hooks_absent.
Qed.

(** ** Dispatch *)

Lemma invoke_classes e w h :
  root_classes (invoke e w h) = class_effect h (root_classes w).
Proof.
  pose proof (run_handler_classes h e w) as Hc. unfold exec in Hc.
  unfold invoke. by destruct (run_handler h e w) as [[[]|x] w'].
Qed.

Lemma invoke_listeners e w h : listeners (invoke e w h) = listeners w.
Proof.
  pose proof (run_handler_listeners h e w) as Hl. unfold exec in Hl.
  unfold invoke. by destruct (run_handler h e w) as [[[]|x] w'].
Qed.

Lemma foldl_invoke_classes e hs w :
  root_classes (foldl (invoke e) w hs) = class_effects hs (root_classes w).
Proof.
  revert w. induction hs as [|h hs IH]; intros w; [done|].
  simpl. rewrite IH. unfold class_effects. simpl. by rewrite invoke_classes.
Qed.

Lemma foldl_invoke_listeners e hs w :
  listeners (foldl (invoke e) w hs) = listeners w.
Proof.
  revert w. induction hs as [|h hs IH]; intros w; [done|].
  simpl. by rewrite IH, invoke_listeners.
Qed.

Lemma dispatch_classes e w :
  root_classes (exec (dispatchEvent e) w)
  = class_effects (listeners_for (ev_type e) (listeners w)) (root_classes w).
Proof. apply foldl_invoke_classes. Qed.

Lemma dispatch_listeners e w :
  listeners (exec (dispatchEvent e) w) = listeners w.
Proof. apply foldl_invoke_listeners. Qed.

Lemma dispatch_returns e w : result (dispatchEvent e) w = Ret tt.
Proof. reflexivity. Qed.

Lemma dispatch_all_returns es w : result (dispatch_all es) w = Ret tt.
Proof.
  revert w. induction es as [|e es IH]; intros w; [done|].
  simpl. by rewrite (result_bind _ _ _ tt).
Qed.

Lemma dispatch_all_cons e es w :
  exec (dispatch_all (e :: es)) w
  = exec (dispatch_all es) (exec (dispatchEvent e) w).
Proof. simpl. by rewrite (exec_bind _ _ _ tt). Qed.

Lemma dispatch_all_app es1 es2 w :
  exec (dispatch_all (es1 ++ es2)) w
  = exec (dispatch_all es2) (exec (dispatch_all es1) w).
Proof.
  revert w. induction es1 as [|e es1 IH]; intros w; [done|].
  rewrite <- app_comm_cons, !dispatch_all_cons. apply IH.
Qed.

Lemma listeners_for_app t ls1 ls2 :
  listeners_for t (ls1 ++ ls2) = listeners_for t ls1 ++ listeners_for t ls2.
Proof. unfold listeners_for. by rewrite filter_app, fmap_app. Qed.

Lemma class_effects_snoc hs h cls :
  class_effects (hs ++ [h]) cls = class_effect h (class_effects hs cls).
Proof. unfold class_effects. by rewrite foldl_app. Qed.

(** The script's own listener is the last one registered for its event, so
    it has the last word on the busy class. *)
Lemma dispatch_send_installed d w pre :
  listeners w = pre ++ hook_table →
  busy ∈ root_classes (exec (dispatchEvent (send_event d)) w).
Proof.
  intros Hl. rewrite dispatch_classes, Hl, listeners_for_app. simpl.
  change (listeners_for "htmx:send" hook_table) with [HSend].
  rewrite class_effects_snoc. apply token_add_elem.
Qed.

Lemma dispatch_afterOnLoad_installed d w pre :
  listeners w = pre ++ hook_table →
  busy ∉ root_classes (exec (dispatchEvent (afterOnLoad_event d)) w).
Proof.
  intros Hl. rewrite dispatch_classes, Hl, listeners_for_app. simpl.
  change (listeners_for "htmx:afterOnLoad" hook_table) with [HAfterOnLoad].
  rewrite class_effects_snoc. apply token_remove_elem.
Qed.

Lemma class_effect_other h c cls :
  c ≠ busy → c ∈ class_effect h cls ↔ c ∈ cls.
Proof.
  intros Hne. destruct h; simpl; [|by apply token_remove_other|done].
  by apply token_add_other.
Qed.

Lemma class_effects_other hs c cls :
  c ≠ busy → c ∈ class_effects hs cls ↔ c ∈ cls.
Proof.
  intros Hne. revert cls. induction hs as [|h hs IH]; intros cls; [done|].
  unfold class_effects in *. simpl. rewrite IH. by apply class_effect_other.
Qed.

Lemma dispatch_all_other es c w :
  c ≠ busy →
  c ∈ root_classes (exec (dispatch_all es) w) ↔ c ∈ root_classes w.
Proof.
  intros Hne. revert w. induction es as [|e es IH]; intros w; [done|].
  rewrite dispatch_all_cons, IH, dispatch_classes.
  by apply class_effects_other.
Qed.

(** More than membership: the other classes keep their order as well. *)
Lemma class_effect_others_order h cls :
  token_remove busy (class_effect h cls) = token_remove busy cls.
Proof.
  destruct h; simpl; [apply token_remove_add|apply token_remove_remove|done].
Qed.

Lemma dispatch_all_others_order es w :
  token_remove busy (root_classes (exec (dispatch_all es) w))
  = token_remove busy (root_classes w).
Proof.
  revert w. induction es as [|e es IH]; intros w; [done|].
  rewrite dispatch_all_cons, IH, dispatch_classes.
  generalize (listeners_for (ev_type e) (listeners w)) as hs.
  generalize (root_classes w) as cls.
  intros cls hs. revert cls. unfold class_effects.
  induction hs as [|h hs IHhs]; intros cls; [done|].
  simpl. by rewrite IHhs, class_effect_others_order.
Qed.

(** The ordered-set shape of the class list survives every event. *)
Lemma dispatch_all_NoDup es w :
  NoDup (root_classes w) → NoDup (root_classes (exec (dispatch_all es) w)).
Proof.
  revert w. induction es as [|e es IH]; intros w Hnd; [done|].
  rewrite dispatch_all_cons. apply IH. rewrite dispatch_classes.
  generalize (listeners_for (ev_type e) (listeners w)) as hs.
  revert Hnd. generalize (root_classes w) as cls.
  intros cls Hnd hs. revert cls Hnd. unfold class_effects.
  induction hs as [|h hs IHhs]; intros cls Hnd; [done|].
  simpl. apply IHhs.
  destruct h; simpl; [by apply token_add_NoDup|by apply token_remove_NoDup|done].
Qed.

(** On a page without earlier listeners, dispatching the error event after
    the script has run invokes the error handler exactly once. *)
Lemma dispatch_responseError_once d w :
  to_boolean (window_htmx w) = true →
  listeners w = [] →
  exec (htmx_hooks ;; dispatchEvent (responseError_event d)) w
  = invoke (responseError_event d) (installed w) HResponseError.
Proof.
  intros Ht Hl. rewrite (exec_bind _ _ _ tt) by apply htmx_hooks_returns.
  unfold exec at 2. rewrite (htmx_hooks_present _ Ht). simpl.
  unfold exec, dispatchEvent, modify. simpl. by rewrite Hl.
Qed.

(** Registration is all or nothing. *)
Lemma htmx_hooks_all_or_nothing w :
  listeners (exec htmx_hooks w) = listeners w
  ∨ listeners (exec htmx_hooks w) = listeners w ++ hook_table.
Proof.
  unfold exec. destruct (to_boolean (window_htmx w)) eqn:Hb.
  - right. by rewrite htmx_hooks_present.
  - left. by rewrite htmx_hooks_absent.
Qed.

(** A falsy [xhr] that is not [undefined] ([null], [0], [NaN], [false] or
    the empty string) stops the [&&] and is itself what gets logged. *)
Lemma on_responseError_falsy_handle d xhr w :
  get_prop d "xhr" = inr xhr →
  to_boolean xhr = false →
  on_responseError (responseError_event d) w
  = (Ret tt, warned [VStr fixed_message; xhr] w).
Proof.
  intros Hx Hf. rewrite (on_responseError_read _ _ xhr) by done.
  unfold and_status. by rewrite Hf.
Qed.

(** * Specified properties *)

(** C1, at the input where the script departs from it.  When the event
    carries no detail at all ([undefined], as for a plain [Event], or
    [null], the default of [CustomEvent]), reading [e.detail.xhr] raises a
    TypeError before [console.warn] is called: the handler throws and the
    console receives nothing.  On a fresh page the dispatch reports that
    exception and the console stays empty. *)
Theorem responseError_without_detail_throws :
  ∀ w,
    on_responseError (responseError_event VUndefined) w = (Throw TypeError, w)
    ∧ on_responseError (responseError_event VNull) w = (Throw TypeError, w)
    ∧ console (exec (htmx_hooks ;;
                     dispatchEvent (responseError_event VUndefined))
                 fresh_page) = []
    ∧ reported (exec (htmx_hooks ;;
                      dispatchEvent (responseError_event VUndefined))
                  fresh_page) = [TypeError].
Proof. intros w. by split_and!. Qed.

(** C2.  When [window.htmx] is falsy the script returns normally and leaves
    the page exactly as it was; in particular the listener list of
    [document] is the one it started with. *)
Theorem htmx_hooks_without_htmx :
  ∀ w,
    to_boolean (window_htmx w) = false →
    result htmx_hooks w = Ret tt
    ∧ exec htmx_hooks w = w
    ∧ listeners (exec htmx_hooks w) = listeners w.
Proof.
  intros w Hf. unfold result, exec. by rewrite (htmx_hooks_absent _ Hf).
Qed.

Lemma htmx_hooks_without_htmx_witness :
  to_boolean (window_htmx (World VUndefined [] ["dark"] [] [])) = false
  ∧ result htmx_hooks (World VUndefined [] ["dark"] [] []) = Ret tt
  ∧ exec htmx_hooks (World VUndefined [] ["dark"] [] [])
    = World VUndefined [] ["dark"] [] []
  ∧ listeners (exec htmx_hooks (World VUndefined [] ["dark"] [] [])) = [].
Proof.
  split; [reflexivity|].
  apply (htmx_hooks_without_htmx (World VUndefined [] ["dark"] [] [])).
  reflexivity.
Defined.

(** C3.  Once the script has run with the library present, whatever the
    classes of the root element were: after a [htmx:send] event the class
    [hx-busy] is on the root element, and after a following
    [htmx:afterOnLoad] event it is not. *)
Theorem busy_between_send_and_afterOnLoad :
  ∀ w d1 d2,
    to_boolean (window_htmx w) = true →
    busy ∈ root_classes (exec (htmx_hooks ;; dispatchEvent (send_event d1)) w)
    ∧ busy ∉ root_classes
              (exec (htmx_hooks ;;
                     dispatch_all [send_event d1; afterOnLoad_event d2]) w).
Proof.
  intros w d1 d2 Ht.
  rewrite !(exec_bind htmx_hooks _ _ tt) by apply htmx_hooks_returns.
  assert (exec htmx_hooks w = installed w) as ->.
  { unfold exec. by rewrite (htmx_hooks_present _ Ht). }
  split.
  - by apply (dispatch_send_installed _ _ (listeners w)).
  - rewrite dispatch_all_cons, dispatch_all_cons. simpl.
    apply (dispatch_afterOnLoad_installed _ _ (listeners w)).
    by rewrite dispatch_listeners.
Qed.

Lemma busy_between_send_and_afterOnLoad_witness :
  to_boolean (window_htmx (World (VObj ∅) [] ["dark"] [] [])) = true
  ∧ busy ∈ root_classes
             (exec (htmx_hooks ;; dispatchEvent (send_event VNull))
                (World (VObj ∅) [] ["dark"] [] []))
  ∧ busy ∉ root_classes
             (exec (htmx_hooks ;;
                    dispatch_all [send_event VNull; afterOnLoad_event VNull])
                (World (VObj ∅) [] ["dark"] [] [])).
Proof.
  split; [reflexivity|].
  apply (busy_between_send_and_afterOnLoad
           (World (VObj ∅) [] ["dark"] [] []) VNull VNull).
  reflexivity.
Defined.

(** C4.  The send handler on a page whose root element already has
    [hx-busy], and the completed handler on a page whose root element does
    not have it, return normally and leave the page, hence the class list,
    as it was. *)
Theorem busy_handlers_idempotent :
  ∀ e w,
    (busy ∈ root_classes w → on_send e w = (Ret tt, w))
    ∧ (busy ∉ root_classes w → on_afterOnLoad e w = (Ret tt, w)).
Proof.
  intros e w. split; intros Hb.
  - by rewrite on_send_run, token_add_present, set_root_classes_id.
  - by rewrite on_afterOnLoad_run, token_remove_absent, set_root_classes_id.
Qed.

Lemma busy_handlers_idempotent_witness :
  (busy ∈ ["dark"; "hx-busy"]
   ∧ on_send (send_event VNull) (World (VObj ∅) [] ["dark"; "hx-busy"] [] [])
     = (Ret tt, World (VObj ∅) [] ["dark"; "hx-busy"] [] []))
  ∧ ((busy ∉ ["dark"])
     ∧ on_afterOnLoad (afterOnLoad_event VNull) (World (VObj ∅) [] ["dark"] [] [])
       = (Ret tt, World (VObj ∅) [] ["dark"] [] [])).
Proof.
  assert (H1 : busy ∈ ["dark"; "hx-busy"])
    by (apply (bool_decide_unpack _); vm_compute; exact I).
  assert (H2 : busy ∉ ["dark"])
    by (apply (bool_decide_unpack _); vm_compute; exact I).
  split; split; [exact H1| |exact H2|].
  - exact (proj1 (busy_handlers_idempotent (send_event VNull)
                    (World (VObj ∅) [] ["dark"; "hx-busy"] [] [])) H1).
  - exact (proj2 (busy_handlers_idempotent (afterOnLoad_event VNull)
                    (World (VObj ∅) [] ["dark"] [] [])) H2).
Defined.

(** C5.  When the detail of the error event holds a transport handle [xhr]
    whose [status] is 500, the error handler returns normally and appends
    exactly one warning to the console, with the arguments
    ["HTMX request failed"] and [500].  On a page with no earlier
    listeners, dispatching the event after the script has run adds exactly
    that one entry. *)
Theorem responseError_logs_status_500 :
  ∀ d xhr w,
    get_prop d "xhr" = inr xhr →
    get_prop xhr "status" = inr (VNum 500) →
    on_responseError (responseError_event d) w
    = (Ret tt, warned [VStr "HTMX request failed"; VNum 500] w)
    ∧ (to_boolean (window_htmx w) = true →
       listeners w = [] →
       console (exec (htmx_hooks ;; dispatchEvent (responseError_event d)) w)
       = console w ++ [LogEntry LWarn [VStr "HTMX request failed"; VNum 500]]).
Proof.
  intros d xhr w Hx Hs.
  assert (on_responseError (responseError_event d) w
          = (Ret tt, warned [VStr "HTMX request failed"; VNum 500] w)) as Hrun.
  { rewrite (on_responseError_read _ _ xhr) by done.
    unfold and_status. destruct xhr; try discriminate Hs.
    simpl to_boolean. cbv iota. by rewrite Hs. }
  split; [done|]. intros Ht Hl.
  rewrite dispatch_responseError_once by done.
  unfold invoke. simpl run_handler.
  assert (on_responseError (responseError_event d) (installed w)
          = (Ret tt, warned [VStr "HTMX request failed"; VNum 500]
                       (installed w))) as ->; [|done].
  rewrite (on_responseError_read _ _ xhr) by done.
  unfold and_status. destruct xhr; try discriminate Hs.
  simpl to_boolean. cbv iota. by rewrite Hs.
Qed.

Lemma responseError_logs_status_500_witness :
  get_prop (VObj {[ "xhr" := VObj {[ "status" := VNum 500 ]} ]}) "xhr"
  = inr (VObj {[ "status" := VNum 500 ]})
  ∧ get_prop (VObj {[ "status" := VNum 500 ]}) "status" = inr (VNum 500)
  ∧ to_boolean (window_htmx fresh_page) = true
  ∧ listeners fresh_page = []
  ∧ on_responseError
      (responseError_event
         (VObj {[ "xhr" := VObj {[ "status" := VNum 500 ]} ]})) fresh_page
    = (Ret tt, warned [VStr "HTMX request failed"; VNum 500] fresh_page)
  ∧ console
      (exec (htmx_hooks ;;
             dispatchEvent
               (responseError_event
                  (VObj {[ "xhr" := VObj {[ "status" := VNum 500 ]} ]})))
         fresh_page)
    = [LogEntry LWarn [VStr "HTMX request failed"; VNum 500]].
Proof.
  assert (H1 : get_prop (VObj {[ "xhr" := VObj {[ "status" := VNum 500 ]} ]})
                 "xhr" = inr (VObj {[ "status" := VNum 500 ]}))
    by (vm_compute; reflexivity).
  assert (H2 : get_prop (VObj {[ "status" := VNum 500 ]}) "status"
               = inr (VNum 500))
    by (vm_compute; reflexivity).
  split_and!; [exact H1|exact H2|reflexivity|reflexivity| |].
  - exact (proj1 (responseError_logs_status_500 _ _ fresh_page H1 H2)).
  - exact (proj2 (responseError_logs_status_500 _ _ fresh_page H1 H2)
             eq_refl eq_refl).
Defined.

(** C6.  When the detail of the error event is present but has no
    transport handle [xhr], or its transport handle has no [status], the
    error handler returns normally and the one warning it appends has the
    arguments ["HTMX request failed"] and [undefined]. *)
Theorem responseError_missing_fields :
  ∀ d w,
    (lacks d "xhr"
     ∨ ∃ x, get_prop d "xhr" = inr (VObj x) ∧ lacks (VObj x) "status") →
    on_responseError (responseError_event d) w
    = (Ret tt, warned [VStr "HTMX request failed"; VUndefined] w).
Proof.
  intros d w [[_ Hx]|(x & Hx & _ & Hs)].
  - by rewrite (on_responseError_read _ _ VUndefined).
  - rewrite (on_responseError_read _ _ (VObj x)) by done.
    unfold and_status. simpl to_boolean. cbv iota. by rewrite Hs.
Qed.

Lemma responseError_missing_fields_witness :
  (lacks (VObj ∅) "xhr"
   ∧ on_responseError (responseError_event (VObj ∅)) fresh_page
     = (Ret tt, warned [VStr "HTMX request failed"; VUndefined] fresh_page))
  ∧ ((∃ x, get_prop (VObj {[ "xhr" := VObj ∅ ]}) "xhr" = inr (VObj x)
           ∧ lacks (VObj x) "status")
     ∧ on_responseError (responseError_event (VObj {[ "xhr" := VObj ∅ ]}))
         fresh_page
       = (Ret tt, warned [VStr "HTMX request failed"; VUndefined] fresh_page)).
Proof.
  assert (H1 : lacks (VObj ∅) "xhr") by (split; reflexivity).
  assert (H2 : ∃ x, get_prop (VObj {[ "xhr" := VObj ∅ ]}) "xhr" = inr (VObj x)
                    ∧ lacks (VObj x) "status").
  { exists ∅. split; [vm_compute; reflexivity|split; reflexivity]. }
  split; split; [exact H1| |exact H2|].
  - exact (responseError_missing_fields _ fresh_page (or_introl H1)).
  - exact (responseError_missing_fields _ fresh_page (or_intror H2)).
Defined.

(** C7.  The error handler leaves the class list of the root element as it
    was, so [hx-busy] is there afterwards exactly when it was there before.
    Among the three handlers only the send handler can make [hx-busy]
    appear and only the completed handler can make it disappear. *)
Theorem responseError_keeps_busy :
  ∀ e w,
    root_classes (exec (on_responseError e) w) = root_classes w
    ∧ (busy ∈ root_classes (exec (on_responseError e) w)
       ↔ busy ∈ root_classes w)
    ∧ (∀ h, busy ∉ root_classes w →
            busy ∈ root_classes (exec (run_handler h e) w) → h = HSend)
    ∧ (∀ h, busy ∈ root_classes w →
            busy ∉ root_classes (exec (run_handler h e) w) →
            h = HAfterOnLoad).
Proof.
  intros e w.
  pose proof (run_handler_classes HResponseError e w) as Hc. simpl in Hc.
  split_and!; [done|by rewrite Hc| |].
  - intros h Hout Hin. rewrite run_handler_classes in Hin.
    destruct h; simpl in Hin; [done| |done].
    by apply token_remove_sub in Hin.
  - intros h Hin Hout. rewrite run_handler_classes in Hout.
    destruct h; simpl in Hout; [|done|done].
    exfalso. apply Hout. by apply token_add_keeps.
Qed.

Lemma responseError_keeps_busy_witness :
  (busy ∉ root_classes fresh_page)
  ∧ busy ∈ root_classes (exec (run_handler HSend (send_event VNull)) fresh_page)
  ∧ HSend = HSend.
Proof.
  assert (H1 : busy ∉ root_classes fresh_page)
    by (apply (bool_decide_unpack _); vm_compute; exact I).
  assert (H2 : busy ∈ root_classes
                      (exec (run_handler HSend (send_event VNull)) fresh_page))
    by (apply (bool_decide_unpack _); vm_compute; exact I).
  split_and!; [exact H1|exact H2|].
  exact (proj1 (proj2 (proj2
           (responseError_keeps_busy (send_event VNull) fresh_page)))
           HSend H1 H2).
Defined.

(** C8.  Once the script has run with the library present, whatever the
    classes of the root element were: after two [htmx:send] events the
    class [hx-busy] is on the root element, and one [htmx:afterOnLoad]
    event after them takes it off. *)
Theorem sent_sent_completed_clears :
  ∀ w d1 d2 d3,
    to_boolean (window_htmx w) = true →
    busy ∈ root_classes
             (exec (htmx_hooks ;;
                    dispatch_all [send_event d1; send_event d2]) w)
    ∧ busy ∉ root_classes
               (exec (htmx_hooks ;;
                      dispatch_all [send_event d1; send_event d2;
                                    afterOnLoad_event d3]) w).
Proof.
  intros w d1 d2 d3 Ht.
  rewrite !(exec_bind htmx_hooks _ _ tt) by apply htmx_hooks_returns.
  assert (exec htmx_hooks w = installed w) as ->.
  { unfold exec. by rewrite (htmx_hooks_present _ Ht). }
  split.
  - rewrite !dispatch_all_cons. simpl.
    apply (dispatch_send_installed _ _ (listeners w)).
    by rewrite dispatch_listeners.
  - rewrite !dispatch_all_cons. simpl.
    apply (dispatch_afterOnLoad_installed _ _ (listeners w)).
    by rewrite !dispatch_listeners.
Qed.

Lemma sent_sent_completed_clears_witness :
  to_boolean (window_htmx (World (VObj ∅) [] ["hx-busy"; "dark"] [] [])) = true
  ∧ busy ∈ root_classes
             (exec (htmx_hooks ;;
                    dispatch_all [send_event VNull; send_event VNull])
                (World (VObj ∅) [] ["hx-busy"; "dark"] [] []))
  ∧ busy ∉ root_classes
             (exec (htmx_hooks ;;
                    dispatch_all [send_event VNull; send_event VNull;
                                  afterOnLoad_event VNull])
                (World (VObj ∅) [] ["hx-busy"; "dark"] [] [])).
Proof.
  split; [reflexivity|].
  apply (sent_sent_completed_clears
           (World (VObj ∅) [] ["hx-busy"; "dark"] [] []) VNull VNull VNull).
  reflexivity.
Defined.

(** C9.  A class other than [hx-busy] is on the root element after any of
    the three handlers exactly when it was there before; and, whether or
    not the script registers anything, it is there after any sequence of
    events exactly when it was there at the start. *)
Theorem other_classes_preserved :
  ∀ c,
    c ≠ busy →
    (∀ h e w,
        c ∈ root_classes (exec (run_handler h e) w) ↔ c ∈ root_classes w)
    ∧ (∀ es w,
          c ∈ root_classes (exec (htmx_hooks ;; dispatch_all es) w)
          ↔ c ∈ root_classes w).
Proof.
  intros c Hne. split.
  - intros h e w. rewrite run_handler_classes. by apply class_effect_other.
  - intros es w.
    rewrite (exec_bind htmx_hooks _ _ tt) by apply htmx_hooks_returns.
    by rewrite dispatch_all_other, htmx_hooks_classes.
Qed.

Lemma other_classes_preserved_witness :
  "dark" ≠ busy
  ∧ ("dark" ∈ root_classes
                (exec (htmx_hooks ;;
                       dispatch_all [send_event VNull; afterOnLoad_event VNull;
                                     responseError_event VUndefined])
                   (World (VObj ∅) [] ["hx-busy"; "dark"] [] []))
     ↔ "dark" ∈ root_classes (World (VObj ∅) [] ["hx-busy"; "dark"] [] [])).
Proof.
  assert (H : "dark" ≠ busy) by discriminate.
  split; [exact H|].
  exact (proj2 (other_classes_preserved "dark" H) _ _).
Defined.

(** C10.  The send and completed handlers produce the same outcome and the
    same page whatever event they are given, and neither adds anything to
    the console. *)
Theorem busy_handlers_ignore_payload :
  ∀ e1 e2 w,
    on_send e1 w = on_send e2 w
    ∧ on_afterOnLoad e1 w = on_afterOnLoad e2 w
    ∧ root_classes (exec (on_send e1) w) = root_classes (exec (on_send e2) w)
    ∧ root_classes (exec (on_afterOnLoad e1) w)
      = root_classes (exec (on_afterOnLoad e2) w)
    ∧ console (exec (on_send e1) w) = console w
    ∧ console (exec (on_afterOnLoad e1) w) = console w.
Proof. intros e1 e2 w. by split_and!. Qed.

(** * Further properties of the script *)

(** ** Which listeners answer an event *)

Lemma hook_table_handler_of t h : (t, h) ∈ hook_table ↔ handler_of t = Some h.
Proof.
  unfold hook_table, handler_of.
  rewrite !elem_of_cons, elem_of_nil. split.
  - intros [[= -> ->]|[[= -> ->]|[[= -> ->]|[]]]]; reflexivity.
  - repeat case_decide; intros [= <-]; subst; tauto.
Qed.


Lemma elem_of_listeners_for h t ls : h ∈ listeners_for t ls ↔ (t, h) ∈ ls.
Proof.
  unfold listeners_for. rewrite list_elem_of_fmap. split.
  - intros [[t' h'] [-> Hin]].
    apply list_elem_of_filter in Hin as [Ht Hin]. simpl in *. by subst.
  - intros Hin. exists (t, h). split; [done|].
    by apply list_elem_of_filter.
Qed.


Lemma class_effect_idem h cls :
  class_effect h (class_effect h cls) = class_effect h cls.
Proof.
  destruct h; simpl; [|apply token_remove_remove|done].
  apply token_add_present, token_add_elem.
Qed.

Lemma class_effects_same h hs cls :
  Forall (eq h) hs → hs ≠ [] → class_effects hs cls = class_effect h cls.
Proof.
  intros Hall. revert cls.
  induction Hall as [|h' hs <- Hall IH]; intros cls Hne; [done|].
  unfold class_effects in *. simpl.
  destruct hs as [|h2 hs']; [done|].
  rewrite IH by done. apply class_effect_idem.
Qed.

Lemma hooked_installed w : hooks_only (listeners w) → hooked (installed w).
Proof.
  intros Hh. split; simpl.
  - apply Forall_app. split; [done|]. by apply Forall_forall.
  - intros p Hp. apply elem_of_app. by right.
Qed.

Lemma hooked_dispatch e w : hooked w → hooked (exec (dispatchEvent e) w).
Proof. unfold hooked. by rewrite dispatch_listeners. Qed.

(** On a page that holds the script's registrations, an event runs the one
    handler written for its type, however often it was registered. *)
Lemma dispatch_hooked_classes e w :
  hooked w →
  root_classes (exec (dispatchEvent e) w)
  = match handler_of (ev_type e) with
    | Some h => class_effect h (root_classes w)
    | None => root_classes w
    end.
Proof.
  intros [Honly Hsub]. rewrite dispatch_classes.
  set (hs := listeners_for (ev_type e) (listeners w)).
  assert (∀ h, h ∈ hs → handler_of (ev_type e) = Some h) as Hall.
  { intros h Hin. apply elem_of_listeners_for in Hin.
    apply hook_table_handler_of.
    unfold hooks_only in Honly. rewrite Forall_forall in Honly. by apply Honly. }
  destruct (handler_of (ev_type e)) as [h|] eqn:Hh.
  - assert (h ∈ hs) as Hin.
    { apply elem_of_listeners_for, Hsub. by apply hook_table_handler_of. }
    apply class_effects_same.
    + apply Forall_forall. intros h' Hin'. apply Hall in Hin'. congruence.
    + intros Heq. rewrite Heq in Hin. by apply elem_of_nil in Hin.
  - destruct hs as [|h hs']; [done|].
    specialize (Hall h (list_elem_of_here _ _)). discriminate.
Qed.

Lemma dispatch_not_listened e w :
  hooks_only (listeners w) →
  handler_of (ev_type e) = None →
  exec (dispatchEvent e) w = w.
Proof.
  intros Honly Hnone. unfold exec, dispatchEvent, modify. simpl.
  destruct (listeners_for (ev_type e) (listeners w)) as [|h hs] eqn:Hl; [done|].
  assert (h ∈ listeners_for (ev_type e) (listeners w)) as Hin
    by (rewrite Hl; apply list_elem_of_here).
  apply elem_of_listeners_for in Hin.
  unfold hooks_only in Honly. rewrite Forall_forall in Honly.
  apply Honly, hook_table_handler_of in Hin. congruence.
Qed.

Lemma exec_htmx_hooks_present w :
  to_boolean (window_htmx w) = true → exec htmx_hooks w = installed w.
Proof. intros Ht. unfold exec. by rewrite htmx_hooks_present. Qed.

Lemma exec_htmx_hooks_absent w :
  to_boolean (window_htmx w) = false → exec htmx_hooks w = w.
Proof. intros Hf. unfold exec. by rewrite htmx_hooks_absent. Qed.

Lemma htmx_hooks_console w : console (exec htmx_hooks w) = console w.
Proof.
  destruct (to_boolean (window_htmx w)) eqn:Hb.
  - by rewrite exec_htmx_hooks_present.
  - by rewrite exec_htmx_hooks_absent.
Qed.

Lemma exec_after_hooks {A} (k : js A) w :
  exec (htmx_hooks ;; k) w = exec k (exec htmx_hooks w).
Proof. by rewrite (exec_bind htmx_hooks _ _ tt) by apply htmx_hooks_returns. Qed.

Lemma dispatch_all_busy_flag es w :
  hooked w →
  bool_decide (busy ∈ root_classes (exec (dispatch_all es) w))
  = busy_flag es (bool_decide (busy ∈ root_classes w)).
Proof.
  revert w. induction es as [|e es IH]; intros w Hw; [done|].
  rewrite dispatch_all_cons, IH by by apply hooked_dispatch.
  unfold busy_flag. simpl. f_equal.
  rewrite dispatch_hooked_classes by done. unfold flag_step.
  destruct (handler_of (ev_type e)) as [[]|]; simpl; [| |done..].
  - apply bool_decide_eq_true, token_add_elem.
  - apply bool_decide_eq_false, token_remove_elem.
Qed.

Lemma dispatch_all_keeps_busy es w :
  hooked w →
  Forall (fun e => ev_type e ≠ "htmx:afterOnLoad") es →
  busy ∈ root_classes w →
  busy ∈ root_classes (exec (dispatch_all es) w).
Proof.
  intros Hw Hes. revert w Hw.
  induction Hes as [|e es He Hes IH]; intros w Hw Hb; [done|].
  rewrite dispatch_all_cons. apply IH; [by apply hooked_dispatch|].
  rewrite dispatch_hooked_classes by done.
  destruct (handler_of (ev_type e)) as [[]|] eqn:Hh; simpl; [|exfalso|done..].
  - by apply token_add_keeps.
  - apply He. unfold handler_of in Hh. by repeat case_decide.
Qed.

(** ** What one invocation does to the console *)

Lemma invoke_error_present e w :
  present (detail e) →
  ∃ v, invoke e w HResponseError = warned [VStr fixed_message; v] w.
Proof.
  intros Hp. destruct (get_prop_present _ "xhr" Hp) as [x Hx].
  exists (and_status x). unfold invoke. simpl run_handler.
  by rewrite (on_responseError_read _ _ _ Hx).
Qed.

Lemma invoke_error_absent e w :
  ¬ present (detail e) → invoke e w HResponseError = report TypeError w.
Proof.
  intros Hn. unfold invoke. simpl run_handler.
  by rewrite on_responseError_throw.
Qed.



Lemma invoke_console e w h :
  ∃ new, console (invoke e w h) = console w ++ new ∧ Forall script_warning new.
Proof.
  destruct h.
  - exists []. by rewrite app_nil_r.
  - exists []. by rewrite app_nil_r.
  - destruct (decide (present (detail e))) as [Hp|Hn].
    + destruct (invoke_error_present e w Hp) as [v ->].
      exists [LogEntry LWarn [VStr fixed_message; v]]. split; [done|].
      apply Forall_singleton. split; [done|]. by exists v.
    + rewrite invoke_error_absent by done. exists []. by rewrite app_nil_r.
Qed.

Lemma foldl_invoke_console e hs w :
  ∃ new, console (foldl (invoke e) w hs) = console w ++ new
         ∧ Forall script_warning new.
Proof.
  revert w. induction hs as [|h hs IH]; intros w.
  - exists []. by rewrite app_nil_r.
  - simpl. destruct (IH (invoke e w h)) as (new2 & -> & H2).
    destruct (invoke_console e w h) as (new1 & -> & H1).
    exists (new1 ++ new2). rewrite app_assoc. split; [done|].
    by apply Forall_app.
Qed.

Lemma dispatch_all_console es w :
  ∃ new, console (exec (dispatch_all es) w) = console w ++ new
         ∧ Forall script_warning new.
Proof.
  revert w. induction es as [|e es IH]; intros w.
  - exists []. by rewrite app_nil_r.
  - rewrite dispatch_all_cons.
    destruct (IH (exec (dispatchEvent e) w)) as (new2 & -> & H2).
    destruct (foldl_invoke_console e
                (listeners_for (ev_type e) (listeners w)) w)
      as (new1 & Hc & H1).
    exists (new1 ++ new2). split; [|by apply Forall_app].
    rewrite app_assoc. f_equal. exact Hc.
Qed.




Lemma dispatch_all_no_listeners es w :
  listeners w = [] → exec (dispatch_all es) w = w.
Proof.
  intros Hl. induction es as [|e es IH]; [done|].
  rewrite dispatch_all_cons.
  assert (exec (dispatchEvent e) w = w) as ->; [|done].
  unfold exec, dispatchEvent, modify. simpl. by rewrite Hl.
Qed.

Lemma invoke_error_read e w xhr :
  get_prop (detail e) "xhr" = inr xhr →
  invoke e w HResponseError = warned [VStr fixed_message; and_status xhr] w.
Proof.
  intros Hx. unfold invoke. simpl run_handler.
  by rewrite (on_responseError_read _ _ _ Hx).
Qed.

(** ** The script as a whole *)

(** X1.  The script always returns normally.  It appends its three
    registrations, in source order, exactly when [window.htmx] is truthy and
    none otherwise, and it touches nothing else on the page. *)
Theorem htmx_hooks_registration :
  ∀ w,
    result htmx_hooks w = Ret tt
    ∧ listeners (exec htmx_hooks w)
      = listeners w
        ++ (if to_boolean (window_htmx w)
            then [("htmx:send", HSend); ("htmx:afterOnLoad", HAfterOnLoad);
                  ("htmx:responseError", HResponseError)]
            else [])
    ∧ root_classes (exec htmx_hooks w) = root_classes w
    ∧ console (exec htmx_hooks w) = console w
    ∧ reported (exec htmx_hooks w) = reported w
    ∧ window_htmx (exec htmx_hooks w) = window_htmx w.
Proof.
  intros w. split; [apply htmx_hooks_returns|].
  destruct (to_boolean (window_htmx w)) eqn:Hb.
  - by rewrite exec_htmx_hooks_present.
  - rewrite exec_htmx_hooks_absent by done. by rewrite app_nil_r.
Qed.


(** X3.  What the error handler logs next to the fixed message, once
    [e.detail.xhr] has been read: for an object, its [status] property
    whatever that is, or [undefined] when it has none; for a falsy value
    ([null], [0], [NaN], [false], the empty string), that value itself; for
    any other primitive, [undefined]. *)
Theorem responseError_logged_value :
  ∀ d xhr w,
    get_prop d "xhr" = inr xhr →
    (∀ x, xhr = VObj x →
          on_responseError (responseError_event d) w
          = (Ret tt, warned [VStr "HTMX request failed";
                             default VUndefined (x !! "status")] w))
    ∧ (to_boolean xhr = false →
       on_responseError (responseError_event d) w
       = (Ret tt, warned [VStr "HTMX request failed"; xhr] w))
    ∧ (to_boolean xhr = true → (∀ x, xhr ≠ VObj x) →
       on_responseError (responseError_event d) w
       = (Ret tt, warned [VStr "HTMX request failed"; VUndefined] w)).
Proof.
  intros d xhr w Hx.
  rewrite (on_responseError_read (responseError_event d) w xhr) by done.
  unfold and_status. split_and!.
  - by intros x ->.
  - by intros ->.
  - intros -> Hno. destruct xhr; try done. by destruct (Hno props).
Qed.

Lemma responseError_logged_value_witness :
  on_responseError
    (responseError_event (VObj {[ "xhr" := VObj {[ "status" := VNum 404 ]} ]}))
    fresh_page
  = (Ret tt, warned [VStr "HTMX request failed"; VNum 404] fresh_page)
  ∧ on_responseError (responseError_event (VObj {[ "xhr" := VNull ]}))
      fresh_page
    = (Ret tt, warned [VStr "HTMX request failed"; VNull] fresh_page)
  ∧ on_responseError (responseError_event (VObj {[ "xhr" := VNum 7 ]}))
      fresh_page
    = (Ret tt, warned [VStr "HTMX request failed"; VUndefined] fresh_page).
Proof.
  split_and!.
  - exact (proj1 (responseError_logged_value
                    (VObj {[ "xhr" := VObj {[ "status" := VNum 404 ]} ]})
                    (VObj {[ "status" := VNum 404 ]}) fresh_page eq_refl)
             {[ "status" := VNum 404 ]} eq_refl).
  - exact (proj1 (proj2 (responseError_logged_value
                           (VObj {[ "xhr" := VNull ]}) VNull fresh_page
                           eq_refl))
             eq_refl).
  - refine (proj2 (proj2 (responseError_logged_value
                            (VObj {[ "xhr" := VNum 7 ]}) (VNum 7) fresh_page
                            eq_refl))
              eq_refl _).
    intros x Hx. discriminate Hx.
Defined.

(** X4.  On a page whose listeners are the script's own, an event of any
    type other than the three the script names leaves the page exactly as
    it was. *)
Theorem unlistened_events_ignored :
  ∀ w e,
    hooks_only (listeners w) →
    ev_type e ≠ "htmx:send" →
    ev_type e ≠ "htmx:afterOnLoad" →
    ev_type e ≠ "htmx:responseError" →
    exec (htmx_hooks ;; dispatchEvent e) w = exec htmx_hooks w.
Proof.
  intros w e Honly H1 H2 H3. rewrite exec_after_hooks.
  apply dispatch_not_listened.
  - destruct (to_boolean (window_htmx w)) eqn:Hb.
    + rewrite exec_htmx_hooks_present by done. by apply hooked_installed.
    + by rewrite exec_htmx_hooks_absent.
  - unfold handler_of. by rewrite !decide_False.
Qed.

Lemma unlistened_events_ignored_witness :
  hooks_only (listeners fresh_page)
  ∧ exec (htmx_hooks ;; dispatchEvent (Event "htmx:afterSwap" VNull)) fresh_page
    = exec htmx_hooks fresh_page.
Proof.
  assert (H0 : hooks_only (listeners fresh_page)) by apply Forall_nil_2.
  split; [exact H0|].
  apply (unlistened_events_ignored fresh_page (Event "htmx:afterSwap" VNull) H0);
    discriminate.
Defined.

(** X5.  The busy class behaves as one flag, not as a count of requests in
    flight: after any sequence of events, [hx-busy] is on the root element
    exactly when the last [htmx:send] or [htmx:afterOnLoad] event of the
    sequence was a [htmx:send], or, when there was neither, when it was
    there at the start. *)
Theorem busy_is_single_flag :
  ∀ w es,
    to_boolean (window_htmx w) = true →
    hooks_only (listeners w) →
    busy ∈ root_classes (exec (htmx_hooks ;; dispatch_all es) w)
    ↔ busy_flag es (bool_decide (busy ∈ root_classes w)) = true.
Proof.
  intros w es Ht Honly.
  rewrite exec_after_hooks, exec_htmx_hooks_present by done.
  pose proof (dispatch_all_busy_flag es (installed w)
                (hooked_installed w Honly)) as Hflag.
  simpl in Hflag. rewrite <- Hflag. by rewrite bool_decide_eq_true.
Qed.

Lemma busy_is_single_flag_witness :
  to_boolean (window_htmx fresh_page) = true
  ∧ hooks_only (listeners fresh_page)
  ∧ (busy ∈ root_classes
              (exec (htmx_hooks ;;
                     dispatch_all [send_event VNull; afterOnLoad_event VNull;
                                   send_event VNull;
                                   responseError_event VNull])
                 fresh_page)
     ↔ busy_flag [send_event VNull; afterOnLoad_event VNull;
                  send_event VNull; responseError_event VNull]
         (bool_decide (busy ∈ root_classes fresh_page)) = true).
Proof.
  assert (H0 : hooks_only (listeners fresh_page)) by apply Forall_nil_2.
  split_and!; [reflexivity|exact H0|].
  exact (busy_is_single_flag fresh_page _ eq_refl H0).
Defined.

(** X6.  A [htmx:send] followed by a [htmx:afterOnLoad] leaves the class
    list as it was with [hx-busy] taken out: a root element without the
    class gets its class list back unchanged, order included, and one that
    carried the class beforehand loses it. *)
Theorem send_afterOnLoad_round_trip :
  ∀ w d1 d2,
    to_boolean (window_htmx w) = true →
    hooks_only (listeners w) →
    root_classes
      (exec (htmx_hooks ;;
             dispatch_all [send_event d1; afterOnLoad_event d2]) w)
    = token_remove busy (root_classes w)
    ∧ (busy ∉ root_classes w →
       root_classes
         (exec (htmx_hooks ;;
                dispatch_all [send_event d1; afterOnLoad_event d2]) w)
       = root_classes w).
Proof.
  intros w d1 d2 Ht Honly.
  rewrite exec_after_hooks, exec_htmx_hooks_present by done.
  pose proof (hooked_installed w Honly) as Hw.
  rewrite !dispatch_all_cons.
  assert (root_classes
            (exec (dispatch_all [])
               (exec (dispatchEvent (afterOnLoad_event d2))
                  (exec (dispatchEvent (send_event d1)) (installed w))))
          = token_remove busy (root_classes w)) as Heq.
  { change (exec (dispatch_all []) ?x) with x.
    rewrite dispatch_hooked_classes by by apply hooked_dispatch.
    rewrite dispatch_hooked_classes by done.
    simpl. apply token_remove_add. }
  split; [done|]. intros Hb. rewrite Heq. by apply token_remove_absent.
Qed.

Lemma send_afterOnLoad_round_trip_witness :
  to_boolean (window_htmx (World (VObj ∅) [] ["dark"; "wide"] [] [])) = true
  ∧ hooks_only (listeners (World (VObj ∅) [] ["dark"; "wide"] [] []))
  ∧ (busy ∉ ["dark"; "wide"])
  ∧ root_classes
      (exec (htmx_hooks ;;
             dispatch_all [send_event VNull; afterOnLoad_event VNull])
         (World (VObj ∅) [] ["dark"; "wide"] [] []))
    = ["dark"; "wide"].
Proof.
  assert (H0 : hooks_only (listeners (World (VObj ∅) [] ["dark"; "wide"] [] [])))
    by apply Forall_nil_2.
  assert (H1 : busy ∉ ["dark"; "wide"])
    by (apply (bool_decide_unpack _); vm_compute; exact I).
  split_and!; [reflexivity|exact H0|exact H1|].
  exact (proj2 (send_afterOnLoad_round_trip
                  (World (VObj ∅) [] ["dark"; "wide"] [] []) VNull VNull
                  eq_refl H0) H1).
Defined.

(** X7.  Nothing but [htmx:afterOnLoad] takes the busy class off: after a
    [htmx:send], any further events among which there is no
    [htmx:afterOnLoad], error events included, leave [hx-busy] on the root
    element. *)
Theorem busy_stays_without_afterOnLoad :
  ∀ w d es,
    to_boolean (window_htmx w) = true →
    hooks_only (listeners w) →
    Forall (fun e => ev_type e ≠ "htmx:afterOnLoad") es →
    busy ∈ root_classes
             (exec (htmx_hooks ;; dispatch_all (send_event d :: es)) w).
Proof.
  intros w d es Ht Honly Hes.
  rewrite exec_after_hooks, exec_htmx_hooks_present by done.
  pose proof (hooked_installed w Honly) as Hw.
  rewrite dispatch_all_cons.
  apply dispatch_all_keeps_busy; [by apply hooked_dispatch|done|].
  rewrite dispatch_hooked_classes by done. apply token_add_elem.
Qed.

Lemma busy_stays_without_afterOnLoad_witness :
  to_boolean (window_htmx fresh_page) = true
  ∧ hooks_only (listeners fresh_page)
  ∧ Forall (fun e => ev_type e ≠ "htmx:afterOnLoad")
      [responseError_event (VObj ∅); responseError_event VUndefined]
  ∧ busy ∈ root_classes
             (exec (htmx_hooks ;;
                    dispatch_all [send_event VNull;
                                  responseError_event (VObj ∅);
                                  responseError_event VUndefined])
                fresh_page).
Proof.
  assert (H0 : hooks_only (listeners fresh_page)) by apply Forall_nil_2.
  assert (H1 : Forall (fun e => ev_type e ≠ "htmx:afterOnLoad")
                 [responseError_event (VObj ∅);
                  responseError_event VUndefined])
    by (repeat constructor; discriminate).
  split_and!; [reflexivity|exact H0|exact H1|].
  exact (busy_stays_without_afterOnLoad fresh_page VNull _ eq_refl H0 H1).
Defined.

(** X8.  Whatever events arrive, the script only ever appends to the
    console, and every entry it appends is a warning whose first argument
    is the fixed message and which has exactly one further argument. *)
Theorem console_only_gains_warnings :
  ∀ es w,
    ∃ new,
      console (exec (htmx_hooks ;; dispatch_all es) w) = console w ++ new
      ∧ Forall script_warning new.
Proof.
  intros es w. rewrite exec_after_hooks.
  destruct (dispatch_all_console es (exec htmx_hooks w)) as (new & Hc & Hn).
  exists new. split; [|done]. by rewrite Hc, htmx_hooks_console.
Qed.



(** X10.  The script does not guard against being loaded twice: after two
    runs each event has two listeners, so one [htmx:responseError] event
    whose detail carries an object [xhr] is logged twice, both entries with
    the fixed message and the [status] of that object. *)
Theorem double_load_logs_twice :
  ∀ w d x,
    to_boolean (window_htmx w) = true →
    listeners w = [] →
    get_prop d "xhr" = inr (VObj x) →
    console (exec (htmx_hooks ;; htmx_hooks ;;
                   dispatchEvent (responseError_event d)) w)
    = console w
      ++ [LogEntry LWarn [VStr "HTMX request failed";
                          default VUndefined (x !! "status")];
          LogEntry LWarn [VStr "HTMX request failed";
                          default VUndefined (x !! "status")]].
Proof.
  intros w d x Ht Hl Hx.
  rewrite !exec_after_hooks, (exec_htmx_hooks_present w) by done.
  rewrite (exec_htmx_hooks_present (installed w)) by done.
  unfold exec, dispatchEvent, modify. simpl. rewrite Hl. simpl.
  change (listeners_for "htmx:responseError" (hook_table ++ hook_table))
    with [HResponseError; HResponseError].
  simpl foldl.
  rewrite !(invoke_error_read (responseError_event d) _ (VObj x)) by done.
  simpl. by rewrite <- app_assoc.
Qed.

Lemma double_load_logs_twice_witness :
  to_boolean (window_htmx fresh_page) = true
  ∧ listeners fresh_page = []
  ∧ get_prop (VObj {[ "xhr" := VObj {[ "status" := VNum 503 ]} ]}) "xhr"
    = inr (VObj {[ "status" := VNum 503 ]})
  ∧ console
      (exec (htmx_hooks ;; htmx_hooks ;;
             dispatchEvent
               (responseError_event
                  (VObj {[ "xhr" := VObj {[ "status" := VNum 503 ]} ]})))
         fresh_page)
    = [LogEntry LWarn [VStr "HTMX request failed"; VNum 503];
       LogEntry LWarn [VStr "HTMX request failed"; VNum 503]].
Proof.
  split; [reflexivity|]. split; [reflexivity|]. split; [reflexivity|].
  exact (double_load_logs_twice fresh_page
           (VObj {[ "xhr" := VObj {[ "status" := VNum 503 ]} ]})
           {[ "status" := VNum 503 ]} eq_refl eq_refl eq_refl).
Defined.

(** X11.  The classes other than [hx-busy] keep their order, not only
    their membership: after any sequence of events, the class list with
    [hx-busy] left out is the list the page started with, [hx-busy] left
    out. *)
Theorem other_classes_keep_order :
  ∀ es w,
    token_remove busy (root_classes (exec (htmx_hooks ;; dispatch_all es) w))
    = token_remove busy (root_classes w).
Proof.
  intros es w.
  by rewrite exec_after_hooks, dispatch_all_others_order, htmx_hooks_classes.
Qed.

(** X12.  The presence of the library is tested once, when the script
    runs.  On a page without listeners where [window.htmx] is falsy at that
    moment, no later event changes anything: no class, no log entry, no
    reported exception. *)
Theorem no_htmx_no_reaction :
  ∀ w es,
    to_boolean (window_htmx w) = false →
    listeners w = [] →
    exec (htmx_hooks ;; dispatch_all es) w = w.
Proof.
  intros w es Hf Hl.
  rewrite exec_after_hooks, exec_htmx_hooks_absent by done.
  by apply dispatch_all_no_listeners.
Qed.

Lemma no_htmx_no_reaction_witness :
  to_boolean (window_htmx (World VUndefined [] ["dark"] [] [])) = false
  ∧ listeners (World VUndefined [] ["dark"] [] []) = []
  ∧ exec (htmx_hooks ;;
          dispatch_all [send_event VNull; responseError_event VUndefined])
      (World VUndefined [] ["dark"] [] [])
    = World VUndefined [] ["dark"] [] [].
Proof.
  split; [reflexivity|]. split; [reflexivity|].
  exact (no_htmx_no_reaction (World VUndefined [] ["dark"] [] [])
           [send_event VNull; responseError_event VUndefined]
           eq_refl eq_refl).
Defined.
